(** * OpenShotX: the application shell of [src/main.py]

    [main.py] builds a [QApplication] from [sys.argv], constructs one
    [MainWindow] (a [QMainWindow] with a fixed title and geometry), shows it,
    runs the toolkit's event loop and hands the loop's return value to
    [sys.exit].

    The program is embedded as a state-and-exception monad over a [World]
    that holds the interpreter globals, the toolkit objects the process
    owns, the parts of the operating system a program could touch (files,
    environment, ports) and the chronological trace of external effects.
    The PyQt5 toolkit is not part of the repository: what the display
    session and the user decide is an oracle ([Runtime]) every theorem
    quantifies over, and the toolkit's setters are modelled as updates of a
    widget record. *)

From stdpp Require Import base numbers strings list sorting gmap.

Local Open Scope string_scope.
Local Open Scope list_scope.

(** ** Toolkit objects *)

(** A top-level widget as the program can observe it: the title bar text,
    the geometry [(x, y, width, height)] and the visibility flag. *)
Record QWidget : Type := mkQWidget {
  windowTitle : string;
  geom_x : Z;
  geom_y : Z;
  geom_width : Z;
  geom_height : Z;
  isVisible : bool
}.

Definition pos (w : QWidget) : Z * Z := (geom_x w, geom_y w).
Definition extent (w : QWidget) : Z * Z := (geom_width w, geom_height w).

(** What the environment decides during one run: whether the toolkit can
    attach to a display session for the given arguments, the properties a
    freshly allocated [QMainWindow] has, and what the event loop returns
    ([None]: the loop never returns). *)
Record Runtime : Type := mkRuntime {
  display_ok : list string -> bool;
  blank_title : string;
  blank_x : Z;
  blank_y : Z;
  blank_width : Z;
  blank_height : Z;
  loop_result : option Z
}.

(** A widget is hidden until it is shown. *)
Definition blank (rt : Runtime) : QWidget :=
  mkQWidget (blank_title rt) (blank_x rt) (blank_y rt) (blank_width rt)
            (blank_height rt) false.

Definition set_title (t : string) (q : QWidget) : QWidget :=
  mkQWidget t (geom_x q) (geom_y q) (geom_width q) (geom_height q)
            (isVisible q).

Definition set_rect (x y w h : Z) (q : QWidget) : QWidget :=
  mkQWidget (windowTitle q) x y w h (isVisible q).

Definition set_visible (v : bool) (q : QWidget) : QWidget :=
  mkQWidget (windowTitle q) (geom_x q) (geom_y q) (geom_width q)
            (geom_height q) v.

(** ** External effects *)

(** References to toolkit objects are indices into the object tables. *)
Definition ref : Type := nat.

Inductive Effect : Type :=
  | RuntimeInit (args : list string) (ok : bool)
  | WindowCreate (r : ref)
  | WindowShow (r : ref)
  | EventLoop (app : ref)
  | ProcessExit (code : Z)
  | FileRead (path : string)
  | FileWrite (path : string)
  | PortOpen (port : Z)
  | EnvRead (name : string)
  | EnvWrite (name : string).

Inductive Channel : Type := Gui | Exit | FileSystem | Network | Environment.

Definition channel (e : Effect) : Channel :=
  match e with
  | RuntimeInit _ _ | WindowCreate _ | WindowShow _ | EventLoop _ => Gui
  | ProcessExit _ => Exit
  | FileRead _ | FileWrite _ => FileSystem
  | PortOpen _ => Network
  | EnvRead _ | EnvWrite _ => Environment
  end.

(** ** The world of one process *)

Record World : Type := mkWorld {
  sys_argv : list string;
  globals : list string;
  files : gmap string string;
  environ : gmap string string;
  ports : gset Z;
  apps : list (list string);
  windows : list QWidget;
  trace : list Effect
}.

Definition set_globals (g : list string) (s : World) : World :=
  mkWorld (sys_argv s) g (files s) (environ s) (ports s) (apps s)
          (windows s) (trace s).

Definition set_apps (a : list (list string)) (s : World) : World :=
  mkWorld (sys_argv s) (globals s) (files s) (environ s) (ports s) a
          (windows s) (trace s).

Definition set_windows (ws : list QWidget) (s : World) : World :=
  mkWorld (sys_argv s) (globals s) (files s) (environ s) (ports s) (apps s)
          ws (trace s).

Definition emit (e : Effect) (s : World) : World :=
  mkWorld (sys_argv s) (globals s) (files s) (environ s) (ports s) (apps s)
          (windows s) (trace s ++ [e]).

(** A process as the operating system starts it: the argument vector and
    the ambient files and environment are given, nothing of the toolkit
    exists and nothing has happened. *)
Definition boot (argv : list string) (fs env : gmap string string) : World :=
  mkWorld argv [] fs env ∅ [] [] [].

(** ** Exceptions and the monad *)

Inductive exn : Type :=
  | SystemExit (code : Z)
  | RuntimeError.

Inductive res (A : Type) : Type :=
  | Ok (a : A)
  | Raise (e : exn)
  | Blocked.

Arguments Ok {A} a.
Arguments Raise {A} e.
Arguments Blocked {A}.

Definition M (A : Type) : Type := World -> res A * World.

Definition ret {A} (a : A) : M A := fun s => (Ok a, s).

Definition bind {A B} (m : M A) (k : A -> M B) : M B := fun s =>
  match m s with
  | (Ok a, s') => k a s'
  | (Raise e, s') => (Raise e, s')
  | (Blocked, s') => (Blocked, s')
  end.

(** [M] is a monad in stdpp's sense, which gives the notations
    [x ← m; k] and [m ;; k]. *)
#[global] Instance M_ret : MRet M := @ret.
#[global] Instance M_bind : MBind M := fun A B k m => bind m k.

Definition raise {A} (e : exn) : M A := fun s => (Raise e, s).

Definition tell (e : Effect) : M unit := fun s => (Ok tt, emit e s).

(** ** [src/main.py] *)

Section Program.

Variable rt : Runtime.

(** *** Names the module takes from [sys] and [PyQt5.QtWidgets] *)

(** [sys.argv] *)
Definition argv : M (list string) := fun s => (Ok (sys_argv s), s).

(** [sys.exit(code)] raises [SystemExit(code)]. *)
Definition sys_exit (code : Z) : M unit := raise (SystemExit code).

(** Modelled from the spec: [QApplication] is PyQt5 code, absent from the
    repository. [initialize] "initializes the GUI runtime using process
    arguments; fails fatally if the underlying display/runtime environment
    is unavailable". The attempt is an external effect either way; on
    success the application object records the arguments it was given. *)
Definition QApplication (args : list string) : M ref := fun s =>
  let ok := display_ok rt args in
  let s' := emit (RuntimeInit args ok) s in
  if ok then (Ok (length (apps s)), set_apps (apps s ++ [args]) s')
  else (Raise RuntimeError, s').

(** Allocation of a window object: a new slot of the window table holding
    the toolkit's defaults. *)
Definition object_new : M ref := fun s =>
  (Ok (length (windows s)), set_windows (windows s ++ [blank rt]) s).

(** Update of the widget a reference points to; a dangling reference is
    an error. *)
Definition modify (self : ref) (f : QWidget -> QWidget) : M unit := fun s =>
  match windows s !! self with
  | Some w => (Ok tt, set_windows (<[self := f w]> (windows s)) s)
  | None => (Raise RuntimeError, s)
  end.

(** Modelled from the spec: [QMainWindow.__init__] is PyQt5 code;
    [createMainWindow] "constructs a window" before it sets title, position
    and size. The base constructor creates the toolkit's window for the
    object and leaves the toolkit's defaults in it. *)
Definition QMainWindow_init (self : ref) : M unit :=
  modify self (fun w => w) ;; tell (WindowCreate self).

(** Modelled from the spec: [QWidget.setWindowTitle] is PyQt5 code; the
    window's [title] attribute becomes the given string. *)
Definition setWindowTitle (self : ref) (t : string) : M unit :=
  modify self (set_title t).

(** Modelled from the spec: [QWidget.setGeometry] is PyQt5 code; the
    arguments are [(x, y, width, height)], as the comment on the call in
    [MainWindow.__init__] says. *)
Definition setGeometry (self : ref) (x y w h : Z) : M unit :=
  modify self (set_rect x y w h).

(** Modelled from the spec: [QWidget.show] is PyQt5 code; [show] "makes
    the window visible" and its "observable side effect is the window
    appearing on screen". *)
Definition show (self : ref) : M unit :=
  modify self (set_visible true) ;;
  tell (WindowShow self).

(** Modelled from the spec: [QApplication.exec_] is PyQt5 code;
    [runEventLoop] blocks "until a quit condition ... occurs; returns an
    integer exit code". Whether and with what it returns is the
    environment's choice. *)
Definition exec_ (app : ref) : M Z := fun s =>
  match apps s !! app with
  | None => (Raise RuntimeError, s)
  | Some _ =>
      match loop_result rt with
      | Some n => (Ok n, emit (EventLoop app) s)
      | None => (Blocked, emit (EventLoop app) s)
      end
  end.

(** *** class MainWindow(QMainWindow) *)

Definition MainWindow_init (self : ref) : M unit :=
  QMainWindow_init self ;;
  setWindowTitle self "OpenShot X - Screen Capture Tool" ;;
  setGeometry self 100 100 600 400.

(** The call [MainWindow()]: allocate, run [__init__], return the object. *)
Definition MainWindow : M ref :=
  self ← object_new;
  MainWindow_init self ;;
  ret self.

(** *** def main() *)

Definition main : M unit :=
  args ← argv;
  app ← QApplication args;
  window ← MainWindow;
  show window ;;
  code ← exec_ app;
  sys_exit code.

(** The first three statements of [main]: everything up to and including
    [window.show()]. *)
Definition startup : M (ref * ref) :=
  args ← argv;
  app ← QApplication args;
  window ← MainWindow;
  show window ;;
  ret (app, window).

(** *** The module body *)

(** A module-level [import], [class] or [def] binds a name. *)
Definition define (name : string) : M unit := fun s =>
  (Ok tt, set_globals (globals s ++ [name]) s).

(** Running the file with [__name__] bound to [name]. *)
Definition module (name : string) : M unit :=
  define "sys" ;;
  define "QApplication" ;;
  define "QMainWindow" ;;
  define "MainWindow" ;;
  define "main" ;;
  if String.eqb name "__main__" then main else ret tt.

(** *** The interpreter around the module *)

(** The exit status of a finished script, as the parent process receives
    it on POSIX: 0 when the module body runs to its end, the low 8 bits of
    the argument of an uncaught [SystemExit] (the argument here is the C
    [int] the event loop returned), 1 for any other uncaught exception. A run
    blocked in the event loop has none. *)
Definition exit_status (r : res unit) : option Z :=
  match r with
  | Ok _ => Some 0%Z
  | Raise (SystemExit n) => Some (n mod 256)%Z
  | Raise RuntimeError => Some 1%Z
  | Blocked => None
  end.

Definition finish (r : res unit) (s : World) : option Z * World :=
  match exit_status r with
  | Some c => (Some c, emit (ProcessExit c) s)
  | None => (None, s)
  end.

(** [python main.py args...] in a fresh process. *)
Definition python (args : list string) (fs env : gmap string string)
  : option Z * World :=
  let '(r, s) := module "__main__" (boot args fs env) in finish r s.

End Program.

(** ** The state machine of the specification

    [Uninitialized -> RuntimeReady -> WindowVisible -> EventLoopRunning ->
    Terminated], driven by the calls [main] makes. *)

Inductive Step : Type :=
  | StepInit
  | StepConstruct
  | StepShow
  | StepLoop
  | StepExit.

Definition step_of (e : Effect) : option Step :=
  match e with
  | RuntimeInit _ _ => Some StepInit
  | WindowCreate _ => Some StepConstruct
  | WindowShow _ => Some StepShow
  | EventLoop _ => Some StepLoop
  | ProcessExit _ => Some StepExit
  | _ => None
  end.

Definition step_rank (s : Step) : nat :=
  match s with
  | StepInit => 0
  | StepConstruct => 1
  | StepShow => 2
  | StepLoop => 3
  | StepExit => 4
  end.

Inductive Phase : Type :=
  | Uninitialized
  | RuntimeReady
  | WindowVisible
  | EventLoopRunning
  | Terminated.

Definition phase_rank (p : Phase) : nat :=
  match p with
  | Uninitialized => 0
  | RuntimeReady => 1
  | WindowVisible => 2
  | EventLoopRunning => 3
  | Terminated => 4
  end.

(** The phase after an effect: a failed initialisation and the construction
    of the (still hidden) window leave the phase as it is. *)
Definition next_phase (p : Phase) (e : Effect) : Phase :=
  match e with
  | RuntimeInit _ true => RuntimeReady
  | WindowShow _ => WindowVisible
  | EventLoop _ => EventLoopRunning
  | ProcessExit _ => Terminated
  | _ => p
  end.

(** The phases a process goes through along a trace, the start included. *)
Fixpoint phases (p : Phase) (t : list Effect) : list Phase :=
  match t with
  | [] => [p]
  | e :: t' => p :: phases (next_phase p e) t'
  end.

(** ** Vocabulary of the statements *)

(** The names the module body binds, in order. *)
Definition module_names : list string :=
  ["sys"; "QApplication"; "QMainWindow"; "MainWindow"; "main"].

Definition app_title : string := "OpenShot X - Screen Capture Tool".

(** The widget [MainWindow.__init__] leaves behind, hidden or shown. *)
Definition configured (v : bool) : QWidget :=
  mkQWidget app_title 100 100 600 400 v.

(** The world in which the module body calls [main]. *)
Definition loaded (args : list string) (fs env : gmap string string) : World :=
  set_globals module_names (boot args fs env).

Definition visible_windows (s : World) : list QWidget :=
  filter (fun q => isVisible q = true) (windows s).

(** A runtime with a display whose event loop returns [n], and one without
    a display. *)
Definition desktop (n : Z) : Runtime :=
  mkRuntime (fun _ => true) "" 0 0 640 480 (Some n).

Definition headless : Runtime :=
  mkRuntime (fun _ => false) "" 0 0 640 480 (Some 0%Z).

(** The world [startup] leaves when the display is available: one more
    application object holding [sys.argv], one more window, configured and
    visible, and three more effects. *)
Definition started (s : World) : World :=
  mkWorld (sys_argv s) (globals s) (files s) (environ s) (ports s)
          (apps s ++ [sys_argv s])
          (windows s ++ [configured true])
          (trace s ++ [RuntimeInit (sys_argv s) true;
                       WindowCreate (length (windows s));
                       WindowShow (length (windows s))]).

(** The first two statements of [main]: everything up to and including
    [window = MainWindow()]. *)
Definition constructed (rt : Runtime) : M (ref * ref) :=
  args ← argv;
  app ← QApplication rt args;
  window ← MainWindow rt;
  mret (app, window).

(** The same process in another place: other files, another environment,
    other open ports. *)
Definition relocate (fs env : gmap string string) (p : gset Z) (s : World)
  : World :=
  mkWorld (sys_argv s) (globals s) fs env p (apps s) (windows s) (trace s).

(** The values a C [int] can hold: what the event loop can return. *)
Definition c_int (n : Z) : Prop := (- 2 ^ 31 <= n < 2 ^ 31)%Z.

#[global] Instance Step_eq_dec : EqDecision Step.
Proof. solve_decision. Defined.

(** ** The frame of the program

    A computation is [framed] when, from every world, it leaves the argument
    vector, the files, the environment and the ports as they were and adds
    only effects on the GUI channel to the trace. *)

Record frame (s s' : World) : Prop := mkFrame {
  frame_argv : sys_argv s' = sys_argv s;
  frame_files : files s' = files s;
  frame_environ : environ s' = environ s;
  frame_ports : ports s' = ports s;
  frame_trace :
    exists t, trace s' = trace s ++ t /\ Forall (fun e => channel e = Gui) t
}.

Definition framed {A} (m : M A) : Prop := forall s, frame s (m s).2.

Create HintDb framed.

(** Case analysis on membership in an explicit list. *)
Ltac elem_cases H :=
  repeat (apply elem_of_cons in H as [H|H]; [by simplify_eq|]);
  by apply elem_of_nil in H.

(** * Proofs *)

(** ** The monad's equations *)

Section Bind.

Context {A B : Type}.
Implicit Types (m : M A) (k : A -> M B).

Lemma bind_Ok m k s a s' : m s = (Ok a, s') -> (m ≫= k) s = k a s'.
Proof. intros E. unfold mbind, M_bind, bind. by rewrite E. Qed.

Lemma bind_Raise m k s e s' :
  m s = (Raise e, s') -> (m ≫= k) s = (Raise e, s').
Proof. intros E. unfold mbind, M_bind, bind. by rewrite E. Qed.

Lemma bind_Blocked m k s s' :
  m s = (Blocked, s') -> (m ≫= k) s = (Blocked, s').
Proof. intros E. unfold mbind, M_bind, bind. by rewrite E. Qed.

End Bind.

(** ** What each call does *)

Section Calls.

Variable rt : Runtime.

Lemma modify_Some self f s w :
  windows s !! self = Some w ->
  modify self f s = (Ok tt, set_windows (<[self := f w]> (windows s)) s).
Proof. intros E. unfold modify. by rewrite E. Qed.

Lemma modify_None self f s :
  windows s !! self = None -> modify self f s = (Raise RuntimeError, s).
Proof. intros E. unfold modify. by rewrite E. Qed.

Lemma QApplication_ok args s :
  display_ok rt args = true ->
  QApplication rt args s =
    (Ok (length (apps s)),
     set_apps (apps s ++ [args]) (emit (RuntimeInit args true) s)).
Proof. intros E. unfold QApplication. by rewrite E. Qed.

Lemma QApplication_fail args s :
  display_ok rt args = false ->
  QApplication rt args s =
    (Raise RuntimeError, emit (RuntimeInit args false) s).
Proof. intros E. unfold QApplication. by rewrite E. Qed.

(** [MainWindow()] appends one configured, hidden window to the window
    table and returns the reference to it. *)
Lemma MainWindow_eq s :
  MainWindow rt s =
    (Ok (length (windows s)),
     emit (WindowCreate (length (windows s)))
          (set_windows (windows s ++ [configured false]) s)).
Proof.
  destruct s as [a g f e p ap ws t].
  unfold MainWindow, MainWindow_init.
  erewrite bind_Ok by reflexivity. cbn [windows].
  assert (Hmid : forall q : QWidget, (ws ++ [q]) !! length ws = Some q)
    by (intros q; by apply list_lookup_middle).
  assert (Hins : forall q q' : QWidget,
             <[length ws := q']> (ws ++ [q]) = ws ++ [q']).
  { intros q q'. replace (length ws) with (length ws + 0) at 1 by lia.
    by rewrite insert_app_r. }
  erewrite bind_Ok; last first.
  { erewrite bind_Ok; last first.
    { unfold QMainWindow_init. erewrite bind_Ok; last first.
      - apply modify_Some. cbn. apply Hmid.
      - reflexivity. }
    erewrite bind_Ok; last first.
    { unfold setWindowTitle. apply modify_Some. cbn. rewrite Hins. apply Hmid. }
    unfold setGeometry. apply modify_Some. cbn. rewrite !Hins. apply Hmid. }
  cbn. by rewrite !Hins.
Qed.

Lemma show_Some self s w :
  windows s !! self = Some w ->
  show self s =
    (Ok tt,
     emit (WindowShow self)
          (set_windows (<[self := set_visible true w]> (windows s)) s)).
Proof.
  intros E. unfold show.
  erewrite bind_Ok by (by apply modify_Some). reflexivity.
Qed.

Lemma exec_returns app s a n :
  apps s !! app = Some a -> loop_result rt = Some n ->
  exec_ rt app s = (Ok n, emit (EventLoop app) s).
Proof. intros E1 E2. unfold exec_. by rewrite E1, E2. Qed.

Lemma exec_blocks app s a :
  apps s !! app = Some a -> loop_result rt = None ->
  exec_ rt app s = (Blocked, emit (EventLoop app) s).
Proof. intros E1 E2. unfold exec_. by rewrite E1, E2. Qed.

(** The module body binds its five names and, as the main program, calls
    [main]. *)
Lemma module_eq name s :
  module rt name s =
    (if String.eqb name "__main__" then main rt else mret tt)
      (set_globals (globals s ++ module_names) s).
Proof.
  destruct s as [a g f e p ap ws t]. unfold module.
  do 5 (erewrite bind_Ok by reflexivity). cbn.
  by rewrite <- !app_assoc.
Qed.

(** [main] is [startup] followed by the event loop and the exit. *)
Lemma main_startup s :
  main rt s = (r ← startup rt; code ← exec_ rt r.1; sys_exit code) s.
Proof.
  unfold main, startup, mbind, M_bind, bind.
  destruct (argv s) as [[args| |] s1]; try done.
  destruct (QApplication rt args s1) as [[app| |] s2]; try done.
  destruct (MainWindow rt s2) as [[window| |] s3]; try done.
  destruct (show window s3) as [[[]| |] s4]; done.
Qed.

(** [startup] from the world in which [main] is called. *)
Lemma startup_loaded args fs env :
  startup rt (loaded args fs env) =
    if display_ok rt args then
      (Ok (0, 0),
       mkWorld args module_names fs env ∅ [args] [configured true]
               [RuntimeInit args true; WindowCreate 0; WindowShow 0])
    else
      (Raise RuntimeError,
       mkWorld args module_names fs env ∅ [] []
               [RuntimeInit args false]).
Proof.
  unfold startup. erewrite bind_Ok by reflexivity. cbn [sys_argv loaded boot set_globals].
  destruct (display_ok rt args) eqn:Hok.
  - erewrite bind_Ok by (by apply QApplication_ok).
    erewrite bind_Ok by apply MainWindow_eq.
    erewrite bind_Ok by (by apply show_Some).
    reflexivity.
  - erewrite bind_Raise by (by apply QApplication_fail). reflexivity.
Qed.

(** The three ways a run of the script can go. *)
Lemma python_eq args fs env :
  python rt args fs env =
    if display_ok rt args then
      match loop_result rt with
      | Some n =>
          (Some (n mod 256)%Z,
           mkWorld args module_names fs env ∅ [args] [configured true]
                   [RuntimeInit args true; WindowCreate 0; WindowShow 0;
                    EventLoop 0; ProcessExit (n mod 256)])
      | None =>
          (None,
           mkWorld args module_names fs env ∅ [args] [configured true]
                   [RuntimeInit args true; WindowCreate 0; WindowShow 0;
                    EventLoop 0])
      end
    else
      (Some 1%Z,
       mkWorld args module_names fs env ∅ [] []
               [RuntimeInit args false; ProcessExit 1]).
Proof.
  unfold python. rewrite module_eq. cbn [String.eqb Ascii.eqb Bool.eqb].
  change (set_globals _ (boot args fs env)) with (loaded args fs env).
  rewrite main_startup.
  pose proof (startup_loaded args fs env) as Hs.
  destruct (display_ok rt args).
  - erewrite bind_Ok by exact Hs. cbn [fst].
    destruct (loop_result rt) as [n|] eqn:Hl.
    + erewrite bind_Ok by (by eapply exec_returns). reflexivity.
    + erewrite bind_Blocked by (by eapply exec_blocks). reflexivity.
  - erewrite bind_Raise by exact Hs. reflexivity.
Qed.

End Calls.

(** ** The frame of the program *)

Lemma frame_refl s : frame s s.
Proof. split; try done. exists []. by rewrite app_nil_r. Qed.

Lemma frame_trans s1 s2 s3 : frame s1 s2 -> frame s2 s3 -> frame s1 s3.
Proof.
  intros [Ha Hf He Hp (t & Ht & HG)] [Ha' Hf' He' Hp' (t' & Ht' & HG')].
  split; try congruence.
  exists (t ++ t'). split.
  - by rewrite Ht', Ht, app_assoc.
  - by apply Forall_app.
Qed.

Lemma frame_emit e s : channel e = Gui -> frame s (emit e s).
Proof. intros He. split; try done. exists [e]. split; [done|]. by constructor. Qed.

Lemma frame_set_windows ws s : frame s (set_windows ws s).
Proof. split; try done. exists []. by rewrite app_nil_r. Qed.

Lemma frame_set_apps a s : frame s (set_apps a s).
Proof. split; try done. exists []. by rewrite app_nil_r. Qed.

Lemma frame_set_globals g s : frame s (set_globals g s).
Proof. split; try done. exists []. by rewrite app_nil_r. Qed.

Lemma framed_ret {A} (a : A) : framed (mret a).
Proof. intros s. apply frame_refl. Qed.

Lemma framed_raise {A} e : framed (@raise A e).
Proof. intros s. apply frame_refl. Qed.

Lemma framed_bind {A B} (m : M A) (k : A -> M B) :
  framed m -> (forall a, framed (k a)) -> framed (m ≫= k).
Proof.
  intros Hm Hk s. specialize (Hm s).
  unfold mbind, M_bind, bind.
  destruct (m s) as [[a|e|] s']; cbn in *; try done.
  eapply frame_trans; [exact Hm | apply Hk].
Qed.

Lemma framed_tell e : channel e = Gui -> framed (tell e).
Proof. intros He s. by apply frame_emit. Qed.

Lemma framed_argv : framed argv.
Proof. intros s. apply frame_refl. Qed.

Lemma framed_sys_exit code : framed (sys_exit code).
Proof. apply framed_raise. Qed.

Lemma framed_modify self f : framed (modify self f).
Proof.
  intros s. unfold modify.
  destruct (windows s !! self); cbn; [apply frame_set_windows | apply frame_refl].
Qed.

Lemma framed_define name : framed (define name).
Proof. intros s. apply frame_set_globals. Qed.

#[export] Hint Resolve framed_ret framed_raise framed_tell framed_argv
  framed_sys_exit framed_modify framed_define : framed.

Section Framed.

Variable rt : Runtime.

Lemma framed_QApplication args : framed (QApplication rt args).
Proof.
  intros s. unfold QApplication. cbv zeta.
  destruct (display_ok rt args); cbn [snd].
  - eapply frame_trans; [|apply frame_set_apps]. by apply frame_emit.
  - by apply frame_emit.
Qed.

Lemma framed_object_new : framed (object_new rt).
Proof. intros s. apply frame_set_windows. Qed.

Lemma framed_exec app : framed (exec_ rt app).
Proof.
  intros s. unfold exec_.
  destruct (apps s !! app); [|apply frame_refl].
  destruct (loop_result rt); by apply frame_emit.
Qed.

Lemma framed_show self : framed (show self).
Proof. unfold show. apply framed_bind; auto with framed. Qed.

Lemma framed_MainWindow : framed (MainWindow rt).
Proof.
  unfold MainWindow, MainWindow_init, QMainWindow_init, setWindowTitle,
    setGeometry.
  apply framed_bind; [apply framed_object_new|]. intros self.
  repeat (apply framed_bind; [|intros _]); auto with framed.
Qed.

Lemma framed_main : framed (main rt).
Proof.
  unfold main.
  apply framed_bind; [apply framed_argv|]. intros args.
  apply framed_bind; [apply framed_QApplication|]. intros app.
  apply framed_bind; [apply framed_MainWindow|]. intros window.
  apply framed_bind; [apply framed_show|]. intros _.
  apply framed_bind; [apply framed_exec|]. intros code.
  apply framed_sys_exit.
Qed.

Lemma framed_module name : framed (module rt name).
Proof.
  unfold module.
  repeat (apply framed_bind; [apply framed_define|intros _]).
  destruct (String.eqb name "__main__"); [apply framed_main | apply framed_ret].
Qed.

End Framed.

(** ** Facts about lists used below *)

Lemma filter_hidden (l : list QWidget) :
  Forall (fun q => isVisible q = false) l ->
  filter (fun q => isVisible q = true) l = [].
Proof.
  induction 1 as [|q l Hq _ IH]; [done|].
  rewrite filter_cons_False by congruence. exact IH.
Qed.

Lemma sorted_lookup_le (l : list nat) :
  StronglySorted le l ->
  forall i j a b, i <= j -> l !! i = Some a -> l !! j = Some b -> a <= b.
Proof.
  induction 1 as [|x l Hl IH Hx]; intros i j a b Hij Hi Hj; [done|].
  destruct i as [|i], j as [|j]; cbn in *; simplify_eq; try lia.
  - rewrite Forall_lookup in Hx. eauto.
  - eapply IH; [|done..]. lia.
Qed.

Lemma phase_rank_inj p q : phase_rank p = phase_rank q -> p = q.
Proof. by destruct p, q. Qed.

(** A sequence of phases with non-decreasing ranks never comes back to a
    phase it has left. *)
Lemma sorted_no_revisit (ps : list Phase) :
  StronglySorted le (phase_rank <$> ps) ->
  forall i j k p, i <= j -> j <= k ->
    ps !! i = Some p -> ps !! k = Some p -> ps !! j = Some p.
Proof.
  intros Hs i j k p Hij Hjk Hi Hk.
  destruct (ps !! j) as [q|] eqn:Hj.
  - f_equal. apply phase_rank_inj.
    assert (phase_rank p <= phase_rank q).
    { eapply (sorted_lookup_le _ Hs i j); [done|by rewrite list_lookup_fmap, ?Hi, ?Hj..]. }
    assert (phase_rank q <= phase_rank p).
    { eapply (sorted_lookup_le _ Hs j k); [done|by rewrite list_lookup_fmap, ?Hj, ?Hk..]. }
    lia.
  - apply lookup_ge_None in Hj. apply lookup_lt_Some in Hk. lia.
Qed.

(** ** [main] from an arbitrary world

    [main] and [MainWindow()] from an arbitrary world: a process that
    already owns applications and windows, as when the module is imported and
    [main] is called by other code. *)

Lemma insert_snoc {A} (l : list A) (x y : A) :
  <[length l := y]> (l ++ [x]) = l ++ [y].
Proof.
  replace (length l) with (length l + 0) by lia. by rewrite insert_app_r.
Qed.

Section Anywhere.

Variable rt : Runtime.

(** [startup] from any world. *)
Lemma startup_eq s :
  startup rt s =
    if display_ok rt (sys_argv s) then
      (Ok (length (apps s), length (windows s)), started s)
    else (Raise RuntimeError, emit (RuntimeInit (sys_argv s) false) s).
Proof.
  unfold startup. erewrite bind_Ok by reflexivity.
  destruct (display_ok rt (sys_argv s)) eqn:Hok.
  - erewrite bind_Ok by (by apply QApplication_ok).
    erewrite bind_Ok by apply MainWindow_eq.
    erewrite bind_Ok; last first.
    { apply show_Some with (w := configured false). cbn.
      by apply list_lookup_middle. }
    destruct s as [a g f e p ap ws t]. unfold started, mret, M_ret, ret. cbn.
    rewrite insert_snoc. unfold emit, set_windows, set_apps. cbn.
    by rewrite <- !app_assoc.
  - erewrite bind_Raise by (by apply QApplication_fail). reflexivity.
Qed.

(** [main] from any world. *)
Lemma main_eq s :
  main rt s =
    if display_ok rt (sys_argv s) then
      match loop_result rt with
      | Some n => (Raise (SystemExit n),
                   emit (EventLoop (length (apps s))) (started s))
      | None => (Blocked, emit (EventLoop (length (apps s))) (started s))
      end
    else (Raise RuntimeError, emit (RuntimeInit (sys_argv s) false) s).
Proof.
  rewrite main_startup. pose proof (startup_eq s) as Hs.
  assert (Happ : apps (started s) !! length (apps s) = Some (sys_argv s))
    by (cbn; by apply list_lookup_middle).
  destruct (display_ok rt (sys_argv s)).
  - erewrite bind_Ok by exact Hs. cbn [fst].
    destruct (loop_result rt) as [n|] eqn:Hl.
    + erewrite bind_Ok by (by eapply exec_returns). reflexivity.
    + erewrite bind_Blocked by (by eapply exec_blocks). reflexivity.
  - erewrite bind_Raise by exact Hs. reflexivity.
Qed.

(** [main] up to the construction of the window, from any world. *)
Lemma constructed_eq s :
  constructed rt s =
    if display_ok rt (sys_argv s) then
      (Ok (length (apps s), length (windows s)),
       emit (WindowCreate (length (windows s)))
            (set_windows (windows s ++ [configured false])
               (set_apps (apps s ++ [sys_argv s])
                  (emit (RuntimeInit (sys_argv s) true) s))))
    else (Raise RuntimeError, emit (RuntimeInit (sys_argv s) false) s).
Proof.
  unfold constructed. erewrite bind_Ok by reflexivity.
  destruct (display_ok rt (sys_argv s)) eqn:Hok.
  - erewrite bind_Ok by (by apply QApplication_ok).
    erewrite bind_Ok by apply MainWindow_eq. reflexivity.
  - erewrite bind_Raise by (by apply QApplication_fail). reflexivity.
Qed.

(** [main] is [constructed] followed by the show, the event loop and the
    exit. *)
Lemma main_constructed s :
  main rt s =
    (r ← constructed rt; show r.2 ;; code ← exec_ rt r.1; sys_exit code) s.
Proof.
  unfold main, constructed, mbind, M_bind, bind.
  destruct (argv s) as [[args| |] s1]; try done.
  destruct (QApplication rt args s1) as [[app| |] s2]; try done.
  destruct (MainWindow rt s2) as [[window| |] s3]; done.
Qed.

(** Neither [main] nor the module body looks at the files, the environment
    or the ports, or changes them. *)
Lemma main_relocate s fs env p :
  main rt (relocate fs env p s) =
    ((main rt s).1, relocate fs env p (main rt s).2).
Proof.
  rewrite !main_eq. cbn [sys_argv relocate].
  by destruct (display_ok rt (sys_argv s)); [destruct (loop_result rt)|].
Qed.

Lemma module_relocate name s fs env p :
  module rt name (relocate fs env p s) =
    ((module rt name s).1, relocate fs env p (module rt name s).2).
Proof.
  rewrite !module_eq.
  change (set_globals (globals (relocate fs env p s) ++ module_names)
                      (relocate fs env p s))
    with (relocate fs env p (set_globals (globals s ++ module_names) s)).
  destruct (String.eqb name "__main__"); [apply main_relocate | reflexivity].
Qed.

End Anywhere.

(** The call [main] makes after [startup], from the world [startup] leaves
    when the display is available. *)
Lemma main_loaded_returns rt args fs env n :
  display_ok rt args = true ->
  loop_result rt = Some n ->
  (main rt (loaded args fs env)).1 = Raise (SystemExit n).
Proof.
  intros Hd Hl. rewrite main_startup.
  pose proof (startup_loaded rt args fs env) as Hs. rewrite Hd in Hs.
  erewrite bind_Ok by exact Hs.
  erewrite bind_Ok by (by eapply exec_returns). reflexivity.
Qed.

(** ** The properties of the specification *)

(** C1 (exit propagation), as the code has it: when the runtime comes up
    and the event loop returns the C [int] [N], [main] ends in
    [SystemExit(N)] and the process exits with the low 8 bits of [N], which
    is the last effect of the run. The exit status is [N] itself whenever
    [0 <= N <= 255]: 0 for 0, and the same nonzero [N] up to 255. *)
Theorem exit_code_propagates rt args fs env (N : Z) :
  display_ok rt args = true ->
  loop_result rt = Some N ->
  c_int N ->
  (main rt (loaded args fs env)).1 = Raise (SystemExit N) /\
  (python rt args fs env).1 = Some (N mod 256)%Z /\
  last (trace (python rt args fs env).2) = Some (ProcessExit (N mod 256)) /\
  ((0 <= N <= 255)%Z -> (python rt args fs env).1 = Some N).
Proof.
  intros Hd Hl _. split; [by apply main_loaded_returns|].
  rewrite python_eq, Hd, Hl. split_and!; [done..|].
  intros HN. cbn [fst]. f_equal. apply Z.mod_small. lia.
Qed.

Lemma exit_code_propagates_witness :
  display_ok (desktop 3) ["main.py"] = true /\
  loop_result (desktop 3) = Some 3%Z /\
  c_int 3 /\
  (python (desktop 3) ["main.py"] ∅ ∅).1 = Some 3%Z.
Proof.
  assert (H3 : c_int 3) by (unfold c_int; lia).
  split; [reflexivity|]. split; [reflexivity|]. split; [exact H3|].
  exact (proj1 (proj2 (exit_code_propagates (desktop 3) ["main.py"] ∅ ∅ 3
                         eq_refl eq_refl H3))).
Defined.

(** C1 as the specification words it does not hold for every integer: when
    the event loop returns 256 the process exits with status 0, not 256. *)
Lemma exit_code_256_is_not_propagated :
  display_ok (desktop 256) ["main.py"] = true /\
  loop_result (desktop 256) = Some 256%Z /\
  c_int 256 /\
  (python (desktop 256) ["main.py"] ∅ ∅).1 = Some 0%Z /\
  (python (desktop 256) ["main.py"] ∅ ∅).1 <> Some 256%Z.
Proof.
  split; [reflexivity|]. split; [reflexivity|].
  split; [unfold c_int; lia|]. split; [reflexivity | discriminate].
Qed.

(** C2 (title and geometry): from every world, the call [MainWindow()]
    succeeds, and the window it returns has the title
    "OpenShot X - Screen Capture Tool", the position (100, 100) and the size
    (600, 400), whatever defaults the toolkit gives a fresh window. *)
Theorem MainWindow_title_geometry rt s :
  exists self s' w,
    MainWindow rt s = (Ok self, s') /\
    windows s' !! self = Some w /\
    windowTitle w = "OpenShot X - Screen Capture Tool" /\
    pos w = (100, 100)%Z /\
    extent w = (600, 400)%Z.
Proof.
  eexists _, _, (configured false). split; [apply MainWindow_eq|].
  split; [|done]. cbn. by apply list_lookup_middle.
Qed.

(** C3 (single instance): whenever [startup] completes in a run of the
    script, it leaves exactly one window in the process, titled
    "OpenShot X - Screen Capture Tool"; the whole run creates a window
    exactly once, and the window table at the end of the run holds that one
    window and no second one. *)
Theorem single_window rt args fs env (r : ref * ref) (s1 : World) :
  startup rt (loaded args fs env) = (Ok r, s1) ->
  exists w,
    windows s1 = [w] /\
    windowTitle w = "OpenShot X - Screen Capture Tool" /\
    windows (python rt args fs env).2 = [w] /\
    length (filter (fun e => step_of e = Some StepConstruct)
                   (trace (python rt args fs env).2)) = 1.
Proof.
  intros Hs. rewrite startup_loaded in Hs. rewrite python_eq.
  destruct (display_ok rt args); [|discriminate].
  injection Hs as _ <-. exists (configured true).
  split; [reflexivity|]. split; [reflexivity|].
  by destruct (loop_result rt).
Qed.

Lemma single_window_witness :
  (startup (desktop 0) (loaded ["main.py"] ∅ ∅)).1 = Ok (0, 0) /\
  exists w, windows (python (desktop 0) ["main.py"] ∅ ∅).2 = [w] /\
            windowTitle w = "OpenShot X - Screen Capture Tool".
Proof.
  split; [reflexivity|].
  destruct (single_window (desktop 0) ["main.py"] ∅ ∅ (0, 0)
              (startup (desktop 0) (loaded ["main.py"] ∅ ∅)).2 eq_refl)
    as (w & _ & Ht & Hw & _).
  exists w. split; [exact Hw | exact Ht].
Defined.

(** C4 (fatal startup): when [QApplication] fails, the run ends with no
    window in the process, no window ever created, the event loop never
    entered, and a nonzero exit status. *)
Theorem fatal_startup rt args fs env :
  display_ok rt args = false ->
  let s := (python rt args fs env).2 in
  windows s = [] /\
  (forall r, WindowCreate r ∉ trace s) /\
  (forall a, EventLoop a ∉ trace s) /\
  exists c, (python rt args fs env).1 = Some c /\ c <> 0%Z.
Proof.
  intros Hd. rewrite python_eq, Hd. cbn.
  split; [done|].
  split; [intros r H; elem_cases H|].
  split; [intros r H; elem_cases H|].
  by exists 1%Z.
Qed.

Lemma fatal_startup_witness :
  display_ok headless ["main.py"] = false /\
  windows (python headless ["main.py"] ∅ ∅).2 = [] /\
  exists c, (python headless ["main.py"] ∅ ∅).1 = Some c /\ c <> 0%Z.
Proof.
  split; [reflexivity|].
  pose proof (fatal_startup headless ["main.py"] ∅ ∅ eq_refl) as H.
  split; [exact (proj1 H) | exact (proj2 (proj2 (proj2 H)))].
Defined.

(** C5 (forward order): the steps of every run are initialise, construct,
    show, run the event loop, terminate, in this order: all five when the
    display is available and the loop returns, the first four when the loop
    never returns, and initialise then terminate when the display is
    missing. Every effect of the run is one of these steps, the steps are
    strictly increasing (none repeats, none is out of order), and the phases
    of the state machine only move forward: a phase once left is not entered
    again. *)
Theorem forward_order rt args fs env :
  let t := trace (python rt args fs env).2 in
  let steps := omap step_of t in
  steps =
    (if display_ok rt args then
       [StepInit; StepConstruct; StepShow; StepLoop]
         ++ (if loop_result rt is Some _ then [StepExit] else [])
     else [StepInit; StepExit]) /\
  length steps = length t /\
  StronglySorted lt (step_rank <$> steps) /\
  StronglySorted le (phase_rank <$> phases Uninitialized t) /\
  (forall i j k p, i <= j -> j <= k ->
     phases Uninitialized t !! i = Some p ->
     phases Uninitialized t !! k = Some p ->
     phases Uninitialized t !! j = Some p).
Proof.
  intros t steps.
  assert (Hph : StronglySorted le (phase_rank <$> phases Uninitialized t)).
  { subst t. rewrite python_eq.
    destruct (display_ok rt args); [destruct (loop_result rt)|]; cbn;
      repeat (constructor; [|repeat constructor; lia]); constructor. }
  split_and!; [| | |exact Hph|by apply sorted_no_revisit].
  all: subst steps t; rewrite python_eq;
    destruct (display_ok rt args); [destruct (loop_result rt)|]; cbn; try done.
  all: repeat (constructor; [|repeat constructor; lia]); constructor.
Qed.

(** C6 (argv passed through): the first effect of every run is the
    initialisation of the runtime with exactly the process's argument
    vector, no other argument list ever reaches the runtime, the application
    object holds that vector, and [sys.argv] is unchanged at the end.
    Nothing else depends on the arguments: two argument vectors the runtime
    treats alike give the same exit status, windows and steps. *)
Theorem argv_passed_through rt args fs env :
  let s := (python rt args fs env).2 in
  head (trace s) = Some (RuntimeInit args (display_ok rt args)) /\
  (forall a ok, RuntimeInit a ok ∈ trace s -> a = args) /\
  apps s = (if display_ok rt args then [args] else []) /\
  sys_argv s = args /\
  (forall args', display_ok rt args' = display_ok rt args ->
     (python rt args' fs env).1 = (python rt args fs env).1 /\
     windows (python rt args' fs env).2 = windows s /\
     omap step_of (trace (python rt args' fs env).2) = omap step_of (trace s)).
Proof.
  intros s. subst s. split_and!.
  5: { intros args' Heq. rewrite !python_eq, Heq.
       destruct (display_ok rt args); [destruct (loop_result rt)|]; done. }
  all: rewrite python_eq;
    destruct (display_ok rt args); [destruct (loop_result rt)|]; cbn; try done.
  all: intros a ok H; elem_cases H.
Qed.

Lemma argv_passed_through_witness :
  head (trace (python (desktop 0) ["main.py"; "--fullscreen"] ∅ ∅).2)
    = Some (RuntimeInit ["main.py"; "--fullscreen"] true) /\
  apps (python (desktop 0) ["main.py"; "--fullscreen"] ∅ ∅).2
    = [["main.py"; "--fullscreen"]].
Proof.
  pose proof (argv_passed_through (desktop 0) ["main.py"; "--fullscreen"] ∅ ∅)
    as H.
  split; [exact (proj1 H) | exact (proj1 (proj2 (proj2 H)))].
Defined.

(** C7 (idempotent show): on a live window, [show] succeeds, a second
    [show] succeeds too, and the second call leaves the windows, hence the
    visible windows, as the first left them. When no other window of the
    process is visible, exactly one window is visible afterwards: the one
    shown. *)
Theorem show_idempotent (s : World) (self : ref) (w : QWidget) :
  windows s !! self = Some w ->
  exists s1 s2,
    show self s = (Ok tt, s1) /\
    (show self ;; show self) s = (Ok tt, s2) /\
    windows s2 = windows s1 /\
    visible_windows s2 = visible_windows s1 /\
    ((forall j q, j <> self -> windows s !! j = Some q -> isVisible q = false) ->
     visible_windows s2 = [set_visible true w]).
Proof.
  intros Hw.
  pose proof (lookup_lt_Some _ _ _ Hw) as Hlt.
  assert (H1 : windows (emit (WindowShow self)
                 (set_windows (<[self := set_visible true w]> (windows s)) s))
               !! self = Some (set_visible true w))
    by (by apply list_lookup_insert_eq).
  assert (Hsame : forall t : World,
            windows t = <[self := set_visible true w]> (windows s) ->
            <[self := set_visible true (set_visible true w)]> (windows t)
              = windows t).
  { intros t ->. by rewrite list_insert_insert_eq. }
  eexists _, _. split; [by apply show_Some|].
  split.
  { erewrite bind_Ok by (by apply show_Some). by apply show_Some. }
  split; [by apply Hsame|].
  split; [unfold visible_windows; f_equal; by apply Hsame|].
  intros Hothers. unfold visible_windows. rewrite Hsame by done. cbn.
  rewrite insert_take_drop, filter_app, filter_cons_True by done.
  rewrite !filter_hidden; [done| |].
  - apply Forall_lookup. intros j q Hj. rewrite lookup_drop in Hj.
    eapply Hothers; [|exact Hj]. lia.
  - apply Forall_lookup. intros j q Hj.
    apply lookup_take_Some in Hj as [Hj Hlt'].
    eapply Hothers; [|exact Hj]. lia.
Qed.

Lemma show_idempotent_witness :
  exists s1 s2,
    show 0 (set_windows [configured false] (boot [] ∅ ∅)) = (Ok tt, s1) /\
    (show 0 ;; show 0) (set_windows [configured false] (boot [] ∅ ∅))
      = (Ok tt, s2) /\
    windows s2 = windows s1.
Proof.
  destruct (show_idempotent (set_windows [configured false] (boot [] ∅ ∅)) 0
              (configured false) eq_refl)
    as (s1 & s2 & E1 & E2 & Ew & _).
  exists s1, s2. split; [exact E1|]. split; [exact E2 | exact Ew].
Defined.

(** C8 (no foreign effects): the program neither reads nor writes the
    files, the environment or the ports. From every world and under every
    module name, running the file in another place -- other files, another
    environment, other open ports -- gives the same outcome and the same
    final world but for that place, which comes out as it went in; and the
    file adds only GUI effects to the trace. A whole run of the script
    therefore ends with the files and the environment it started with and no
    port open, its trace holds GUI effects and the process exit only, and
    its exit status and trace are the same whatever the files and the
    environment are. *)
Theorem no_foreign_effects rt args fs env :
  (forall name, framed (module rt name)) /\
  (forall name s fs' env' p',
     module rt name (relocate fs' env' p' s) =
       ((module rt name s).1, relocate fs' env' p' (module rt name s).2)) /\
  let s := (python rt args fs env).2 in
  files s = fs /\
  environ s = env /\
  ports s = ∅ /\
  Forall (fun e => channel e = Gui \/ channel e = Exit) (trace s) /\
  (forall fs' env',
     (python rt args fs' env').1 = (python rt args fs env).1 /\
     trace (python rt args fs' env').2 = trace s).
Proof.
  split; [intros name; apply framed_module|].
  split; [intros name s fs' env' p'; apply module_relocate|].
  intros s. subst s. split_and!.
  5: { intros fs' env'. rewrite !python_eq.
       by destruct (display_ok rt args); [destruct (loop_result rt)|]. }
  all: unfold python.
  all: pose proof (framed_module rt "__main__" (boot args fs env))
    as [Ha Hf He Hp (t & Ht & HG)].
  all: destruct (module rt "__main__" (boot args fs env)) as [r s]; cbn in *.
  all: unfold finish; destruct (exit_status r) as [c|]; cbn; try done.
  all: rewrite Ht; cbn.
  all: assert (HG' : Forall (fun e => channel e = Gui \/ channel e = Exit) t)
    by (eapply Forall_impl; [exact HG | by left]).
  - apply Forall_app. split; [done|]. constructor; [by right | constructor].
  - done.
Qed.

(** C9 (import guard): under any module name other than "__main__" the
    module body completes normally, binds its five names and does nothing
    else: the application objects, the windows and the trace are as before,
    so no [QApplication] was created, no window constructed or shown and no
    event loop entered. Under "__main__" the body calls [main]. *)
Theorem import_is_silent rt name s :
  name <> "__main__" ->
  module rt name s = (Ok tt, set_globals (globals s ++ module_names) s) /\
  (let s' := (module rt name s).2 in
   apps s' = apps s /\ windows s' = windows s /\ trace s' = trace s) /\
  module rt "__main__" s = main rt (set_globals (globals s ++ module_names) s).
Proof.
  intros Hn. rewrite !module_eq.
  apply String.eqb_neq in Hn. rewrite Hn. by cbn.
Qed.

Lemma import_is_silent_witness :
  "main" <> "__main__" /\
  module (desktop 0) "main" (boot ["app.py"] ∅ ∅)
    = (Ok tt, loaded ["app.py"] ∅ ∅).
Proof.
  split; [discriminate|].
  exact (proj1 (import_is_silent (desktop 0) "main" (boot ["app.py"] ∅ ∅)
                  ltac:(discriminate))).
Defined.

(** C10 (independence of the input): take any two runs -- any argument
    vectors, runtimes, files, environments, any state of the process -- in
    which [main] gets as far as [window = MainWindow()]. The window each has
    constructed has the title "OpenShot X - Screen Capture Tool", the
    position (100, 100) and the size (600, 400): the same in both runs. *)
Theorem window_independent_of_argv rt1 rt2 (s1 s2 : World)
    (app1 window1 app2 window2 : ref) (s1' s2' : World) :
  constructed rt1 s1 = (Ok (app1, window1), s1') ->
  constructed rt2 s2 = (Ok (app2, window2), s2') ->
  exists w1 w2,
    windows s1' !! window1 = Some w1 /\
    windows s2' !! window2 = Some w2 /\
    windowTitle w1 = "OpenShot X - Screen Capture Tool" /\
    windowTitle w2 = windowTitle w1 /\
    pos w1 = (100, 100)%Z /\ pos w2 = pos w1 /\
    extent w1 = (600, 400)%Z /\ extent w2 = extent w1.
Proof.
  intros H1 H2. rewrite constructed_eq in H1, H2.
  destruct (display_ok rt1 (sys_argv s1)); [|discriminate].
  destruct (display_ok rt2 (sys_argv s2)); [|discriminate].
  injection H1 as _ <- <-. injection H2 as _ <- <-.
  exists (configured false), (configured false). cbn.
  split; [by apply list_lookup_middle|].
  split; [by apply list_lookup_middle|]. done.
Qed.

Lemma window_independent_of_argv_witness :
  ["main.py"] <> ["main.py"; "-qwindowgeometry"; "800x600+10+20"] /\
  exists w1 w2,
    windows (constructed (desktop 0) (loaded ["main.py"] ∅ ∅)).2 !! 0
      = Some w1 /\
    windows (constructed (desktop 2)
               (loaded ["main.py"; "-qwindowgeometry"; "800x600+10+20"] ∅ ∅)).2
      !! 0 = Some w2 /\
    windowTitle w2 = windowTitle w1 /\
    pos w2 = pos w1 /\
    extent w2 = extent w1.
Proof.
  split; [discriminate|].
  destruct (window_independent_of_argv (desktop 0) (desktop 2)
              (loaded ["main.py"] ∅ ∅)
              (loaded ["main.py"; "-qwindowgeometry"; "800x600+10+20"] ∅ ∅)
              0 0 0 0
              (constructed (desktop 0) (loaded ["main.py"] ∅ ∅)).2
              (constructed (desktop 2)
                 (loaded ["main.py"; "-qwindowgeometry"; "800x600+10+20"]
                         ∅ ∅)).2
              eq_refl eq_refl)
    as (w1 & w2 & E1 & E2 & _ & Et & _ & Ep & _ & Ee).
  exists w1, w2. split; [exact E1|]. split; [exact E2|].
  split; [exact Et|]. split; [exact Ep | exact Ee].
Defined.

(** * Further properties of [main.py] *)

(** X2 (main never returns): from every world, [main] does not return to
    its caller. It ends in [SystemExit(n)] exactly when the display is
    available and the event loop returns [n], in the runtime's error exactly
    when the display is missing, and stays in the event loop otherwise; so
    whatever is sequenced after a call of [main] never runs. *)
Theorem main_never_returns rt s :
  (main rt s).1 <> Ok tt /\
  (forall n, (main rt s).1 = Raise (SystemExit n) <->
             display_ok rt (sys_argv s) = true /\ loop_result rt = Some n) /\
  ((main rt s).1 = Raise RuntimeError <-> display_ok rt (sys_argv s) = false) /\
  ((main rt s).1 = Blocked <->
     display_ok rt (sys_argv s) = true /\ loop_result rt = None) /\
  (forall (B : Type) (k : unit -> M B),
     ((main rt ≫= k) s).2 = (main rt s).2).
Proof.
  split_and!.
  5: { intros B k. unfold mbind, M_bind, bind.
       pose proof (main_eq rt s) as E.
       destruct (main rt s) as [[[]| |] s']; try done.
       destruct (display_ok rt (sys_argv s)); [destruct (loop_result rt)|];
         discriminate. }
  all: rewrite main_eq;
    destruct (display_ok rt (sys_argv s)); [destruct (loop_result rt)|]; cbn.
  all: try intros n'; intuition congruence.
Qed.

(** X4 (what an exit status tells): for an event loop that returns a C
    [int], the exit status of a run of the script lies between 0 and 255. It
    is 0 exactly when the display was available and the loop returned a
    multiple of 256 -- so a status of 0 does not by itself say the loop
    returned 0 -- and the run has no exit status exactly when the display
    was available and the loop never returns. *)
Theorem exit_status_iff rt args fs env :
  (forall n, loop_result rt = Some n -> c_int n) ->
  (forall c, (python rt args fs env).1 = Some c -> (0 <= c < 256)%Z) /\
  ((python rt args fs env).1 = Some 0%Z <->
     display_ok rt args = true /\
     exists n, loop_result rt = Some n /\ (n mod 256 = 0)%Z) /\
  ((python rt args fs env).1 = None <->
     display_ok rt args = true /\ loop_result rt = None).
Proof.
  intros _. rewrite python_eq.
  destruct (display_ok rt args); [destruct (loop_result rt) as [n|]|];
    cbn [fst].
  - split_and!.
    + intros c [= <-]. apply Z.mod_pos_bound. lia.
    + split; [intros [= E]; eauto | intros [_ (m & [= <-] & E)]; by rewrite E].
    + split; [done | by intros [_ ?]].
  - split_and!.
    + done.
    + split; [done | by intros [_ (m & ? & _)]].
    + done.
  - split_and!.
    + intros c [= <-]. lia.
    + split; [done | by intros [? _]].
    + split; [done | by intros [? _]].
Qed.

Lemma exit_status_iff_witness :
  (forall n, loop_result (desktop 512) = Some n -> c_int n) /\
  ((python (desktop 512) ["main.py"] ∅ ∅).1 = Some 0%Z <->
     display_ok (desktop 512) ["main.py"] = true /\
     exists n, loop_result (desktop 512) = Some n /\ (n mod 256 = 0)%Z).
Proof.
  assert (H : forall n, loop_result (desktop 512) = Some n -> c_int n)
    by (intros n [= <-]; unfold c_int; lia).
  split; [exact H|].
  exact (proj1 (proj2 (exit_status_iff (desktop 512) ["main.py"] ∅ ∅ H))).
Defined.
